(** * CheckoutForm: validation schema, formatters and submit handler

    A shallow embedding of [components/blocks/CheckoutForm/index.tsx].
    The component glues three libraries together: the card utility
    (creditcardutils), the schema validator (Joi) and the form-state binder.
    The card utility is an interface here, the part of Joi's string pipeline
    the schema goes through is written out, and the component's own code
    (custom predicates, formatters, getErrors, onSubmit, the rendered flags)
    is translated function by function. *)

From Stdlib Require Import String Ascii List ZArith Bool Lia DecimalString.
Import ListNotations.
Open Scope string_scope.
Open Scope list_scope.

(** ** JavaScript values the component handles *)

Module JS.

(** A field value: [string | null], and [undefined] for an absent key.
    A string is a sequence of code units, one [ascii] each. *)
Inductive value : Type :=
| undefined
| null
| str (s : string).

(** The test of [if (value)]: only a non-empty string is truthy. *)
Definition truthy (v : value) : bool :=
  match v with
  | str s => negb (s =? EmptyString)
  | _ => false
  end.

(** What [parseInt] returns: an integer or NaN. *)
Inductive number : Type :=
| NaN
| Num (z : Z).

(** [a < b] and [a > b]: false as soon as one side is NaN. *)
Definition lt (a b : number) : bool :=
  match a, b with
  | Num x, Num y => (x <? y)%Z
  | _, _ => false
  end.

Definition gt (a b : number) : bool :=
  match a, b with
  | Num x, Num y => (x >? y)%Z
  | _, _ => false
  end.

Definition isNaN (a : number) : bool :=
  match a with
  | NaN => true
  | Num _ => false
  end.

(** [Array.prototype.join]: walk the array left to right, putting the
    separator before every element but the first. *)
Fixpoint join_from (sep : string) (first : bool) (acc : string)
         (xs : list string) : string :=
  match xs with
  | [] => acc
  | x :: rest =>
      join_from sep false
        (if first then acc ++ x else acc ++ sep ++ x) rest
  end.

Definition join (sep : string) (xs : list string) : string :=
  join_from sep true EmptyString xs.

(** [new Date()]: the calendar reading the expiry rule compares with.
    [getMonth] counts from zero. *)
Record Date : Type := mkDate { getMonth : Z; getFullYear : Z }.

End JS.

(** ** The card utility (creditcardutils), as an interface *)

Record Expiry : Type := mkExpiry { month : JS.number; year : JS.number }.

Class CardUtility : Type := {
  validateCardNumber : string -> bool;
  formatCardNumber : string -> string;
  formatCardExpiry : string -> string;
  parseCardType : string -> option string;
  parseCardExpiry : string -> Expiry;
  validateCardCVC : string -> option string -> bool
}.

(** Calls into the card utility are logged, one constructor for each of
    its six functions, so that a statement can say which of them a run
    made. *)
Inductive call : Type :=
| call_validateCardNumber (s : string)
| call_formatCardNumber (s : string)
| call_formatCardExpiry (s : string)
| call_parseCardType (s : string)
| call_parseCardExpiry (s : string)
| call_validateCardCVC (s : string) (brand : option string).

Definition Logged (A : Type) : Type := (A * list call)%type.

Definition ret {A} (a : A) : Logged A := (a, []).

Definition bind {A B} (m : Logged A) (k : A -> Logged B) : Logged B :=
  let '(a, l1) := m in
  let '(b, l2) := k a in
  (b, l1 ++ l2).

Definition logged {A} (c : call) (a : A) : Logged A := (a, [c]).

Declare Scope logged_scope.
Delimit Scope logged_scope with logged.
Notation "x <- m ;; k" := (bind m (fun x => k))
  (at level 61, m at next level, right associativity) : logged_scope.

Definition result {A} (m : Logged A) : A := fst m.
Definition calls {A} (m : Logged A) : list call := snd m.

(** Forward application, to read the schema in the order it is chained. *)
Notation "x |> f" := (f x) (at level 65, left associativity, only parsing).

(** ** Email addresses (the analysis behind Joi's [string().email()]) *)

Module Address.

Definition in_range (lo hi : nat) (c : ascii) : bool :=
  (lo <=? nat_of_ascii c)%nat && (nat_of_ascii c <=? hi)%nat.

Definition is_digit : ascii -> bool := in_range 48 57.
Definition is_upper : ascii -> bool := in_range 65 90.
Definition is_lower : ascii -> bool := in_range 97 122.
Definition is_alpha (c : ascii) : bool := is_upper c || is_lower c.
Definition is_alnum (c : ascii) : bool := is_alpha c || is_digit c.

Definition one_of (set : string) (c : ascii) : bool :=
  existsb (Ascii.eqb c) (list_ascii_of_string set).

(** The atext class of a local part: word characters and the listed
    punctuation. *)
Definition is_atext (c : ascii) : bool :=
  is_alnum c || one_of "_!#$%&'*+-/=?^`{|}~" c.

Definition is_ascii (s : string) : bool :=
  forallb (in_range 0 127) (list_ascii_of_string s).

(** [String.prototype.split] on a one-character separator. *)
Fixpoint split (sep : ascii) (s : string) : list string :=
  match s with
  | EmptyString => [EmptyString]
  | String c rest =>
      if Ascii.eqb c sep then EmptyString :: split sep rest
      else match split sep rest with
           | [] => [String c EmptyString]
           | h :: t => String c h :: t
           end
  end.

Definition toLowerCase (s : string) : string :=
  string_of_list_ascii
    (map (fun c => if is_upper c
                   then ascii_of_nat (nat_of_ascii c + 32) else c)
         (list_ascii_of_string s)).

(** Every dot-separated piece of the local part is a non-empty run of
    atext. *)
Definition local_ok (local : string) : bool :=
  forallb (fun seg => negb (seg =? EmptyString)
                      && forallb is_atext (list_ascii_of_string seg))
          (split "." local).

(** A domain label: [first] decides the opening character, the rest is
    letters, digits and hyphens, and the label does not end in a hyphen.
    At most 63 characters. *)
Definition label_ok (first : ascii -> bool) (seg : string) : bool :=
  match list_ascii_of_string seg with
  | [] => false
  | c :: rest =>
      (String.length seg <=? 63)%nat
      && first c
      && forallb (fun d => is_alnum d || Ascii.eqb d "-") rest
      && is_alnum (last rest c)
  end.

Fixpoint labels_ok (segs : list string) : bool :=
  match segs with
  | [] => true
  | [tld] => label_ok is_alpha tld
  | seg :: rest => label_ok is_alnum seg && labels_ok rest
  end.

Definition tld_allowed (allow : option (list string)) (segs : list string)
  : bool :=
  match allow with
  | None => true
  | Some tlds =>
      existsb (String.eqb (toLowerCase (last segs EmptyString))) tlds
  end.

(** The domain: at most 256 characters, at least two labels, the last
    label in the allow-list when there is one. *)
Definition domain_ok (allow : option (list string)) (domain : string)
  : bool :=
  let segs := split "." domain in
  negb (domain =? EmptyString)
  && (String.length domain <=? 256)%nat
  && (2 <=? List.length segs)%nat
  && tld_allowed allow segs
  && labels_ok segs.

(** An ASCII address: exactly one [@], a local part of at most 64
    characters, at most 254 characters in all. *)
Definition isValidAscii (allow : option (list string)) (email : string)
  : bool :=
  match split "@" email with
  | [local; domain] =>
      negb (local =? EmptyString)
      && (String.length email <=? 254)%nat
      && (String.length local <=? 64)%nat
      && local_ok local
      && domain_ok allow domain
  | _ => false
  end.

End Address.

(** ** The validator's string pipeline (Joi) *)

Module Joi.

(** Validation preferences; the component passes none of its own, so the
    value in force is the validator hook's. *)
Record Prefs : Type := mkPrefs { abortEarly : bool }.

(** What a custom method hands back: [helpers.error(code)] or the value it
    was given ([return value]). *)
Inductive custom_result : Type :=
| helpers_error (code : string)
| return_value.

(** The allow-list of [email({ tlds: { allow } })]: [false] switches the
    check off, a list restricts the last domain segment. *)
Inductive tlds_allow : Type :=
| allow_false
| allow_list (tlds : list string).

Inductive rule : Type :=
| rule_custom (method : JS.value -> Logged custom_result)
| rule_length (limit : nat)
| rule_email (allow : tlds_allow).

Inductive presence : Type := optional | required_.

Record schema : Type := mkSchema {
  rules : list rule;
  flag_presence : presence;
  overrides : list (string * string)
}.

(** One reported error: its code and its rendered message. *)
Record detail : Type := mkDetail { type_ : string; message : string }.

(** The builders, each returning the extended schema. *)
Definition string_ : schema :=
  {| rules := []; flag_presence := optional; overrides := [] |}.

Definition addRule (r : rule) (s : schema) : schema :=
  {| rules := rules s ++ [r];
     flag_presence := flag_presence s;
     overrides := overrides s |}.

Definition custom (method : JS.value -> Logged custom_result) :=
  addRule (rule_custom method).

Definition length (limit : nat) := addRule (rule_length limit).

Definition email (allow : tlds_allow) := addRule (rule_email allow).

Definition required (s : schema) : schema :=
  {| rules := rules s;
     flag_presence := required_;
     overrides := overrides s |}.

Definition messages (m : list (string * string)) (s : schema) : schema :=
  {| rules := rules s;
     flag_presence := flag_presence s;
     overrides := m ++ overrides s |}.


(** What of the library stays abstract: the path an address with
    non-ASCII code units takes (normalisation, punycode), and the built-in
    message catalogue, from an error code and a label to a text. *)
Class Internals : Type := {
  unicode_email : tlds_allow -> string -> bool;
  template : string -> string -> string
}.

Section Pipeline.

Context {I : Internals}.
Variable prefs : Prefs.

Definition isEmailValid (allow : tlds_allow) (v : string) : bool :=
  if Address.is_ascii v
  then Address.isValidAscii
         (match allow with
          | allow_false => None
          | allow_list l => Some l
          end) v
  else unicode_email allow v.

Fixpoint lookup (code : string) (m : list (string * string))
  : option string :=
  match m with
  | [] => None
  | (k, text) :: rest => if k =? code then Some text else lookup code rest
  end.

(** An error's message: the schema's override for the code, else the
    catalogue's. *)
Definition report (s : schema) (label code : string) : detail :=
  {| type_ := code;
     message := match lookup code (overrides s) with
                | Some text => text
                | None => template code label
                end |}.

(** One rule on a string value: [None] when it passes, the error code
    when it does not. *)
Definition apply_rule (r : rule) (v : string) : Logged (option string) :=
  match r with
  | rule_custom method =>
      (out <- method (JS.str v) ;;
       ret (match out with
            | helpers_error code => Some code
            | return_value => None
            end))%logged
  | rule_length limit =>
      ret (if (String.length v =? limit)%nat then None
           else Some "string.length")
  | rule_email allow =>
      ret (if isEmailValid allow v then None else Some "string.email")
  end.

(** The rules run in the order they were added; the first error ends the
    run under [abortEarly], otherwise the errors accumulate. *)
Fixpoint run_rules (rs : list rule) (v : string) : Logged (list string) :=
  match rs with
  | [] => ret []
  | r :: rest =>
      (e <- apply_rule r v ;;
       match e with
       | None => run_rules rest v
       | Some code =>
           if abortEarly prefs then ret [code]
           else (more <- run_rules rest v ;; ret (code :: more))
       end)%logged
  end.

(** A string schema on a value: presence first, then the base type
    (a string, not empty), whose error always ends the run, then the
    rules. *)
Definition validate (label : string) (s : schema) (v : JS.value)
  : Logged (list detail) :=
  match v with
  | JS.undefined =>
      ret (match flag_presence s with
           | required_ => [report s label "any.required"]
           | optional => []
           end)
  | JS.null => ret [report s label "string.base"]
  | JS.str text =>
      if text =? EmptyString then ret [report s label "string.empty"]
      else (codes <- run_rules (rules s) text ;;
            ret (map (report s label) codes))%logged
  end.

End Pipeline.

End Joi.

(** ** The component *)

(** [TypeCheckoutFormDefaultValues]: every field is [string | null]. *)
Record Models : Type := mkModels {
  email : option string;
  card_number : option string;
  card_expire : option string;
  cvv : option string;
  card_type : option string
}.

Definition defaultState : Models :=
  {| email := None; card_number := None; card_expire := None;
     cvv := None; card_type := None |}.

Section Schema.

Context {U : CardUtility}.

(** The closure the schema is built in: the binder's current [models] and
    the clock. *)
Variable models : Models.
Variable now : JS.Date.

Definition email_schema : Joi.schema :=
  Joi.string_
  |> Joi.email Joi.allow_false
  |> Joi.required
  |> Joi.messages [("string.empty", "Required");
                   ("string.email", "Must be a valid email");
                   ("any.required", "Required")].

Definition card_number_custom (value : JS.value)
  : Logged Joi.custom_result :=
  if JS.truthy value then
    match value with
    | JS.str text =>
        (ok <- logged (call_validateCardNumber text)
                      (validateCardNumber text) ;;
         if negb ok then ret (Joi.helpers_error "string.cardNumber")
         else
           match card_type models with
           | None => ret (Joi.helpers_error "string.cardType")
           | Some _ => ret Joi.return_value
           end)%logged
    | _ => ret Joi.return_value
    end
  else ret Joi.return_value.

Definition card_number_schema : Joi.schema :=
  Joi.string_
  |> Joi.custom card_number_custom
  |> Joi.required
  |> Joi.messages [("string.empty", "Required");
                   ("string.cardNumber", "Must be a valid card");
                   ("string.cardType", "Must be a visa or master");
                   ("any.required", "Required")].

Definition card_expire_custom (value : JS.value)
  : Logged Joi.custom_result :=
  if JS.truthy value then
    match value with
    | JS.str text =>
        (my <- logged (call_parseCardExpiry text) (parseCardExpiry text) ;;
         if JS.gt (month my) (JS.Num 12)
            || JS.lt (month my) (JS.Num (JS.getMonth now + 1))
         then ret (Joi.helpers_error "string.month")
         else if JS.isNaN (year my)
                 || JS.lt (year my) (JS.Num (JS.getFullYear now))
         then ret (Joi.helpers_error "string.year")
         else ret Joi.return_value)%logged
    | _ => ret Joi.return_value
    end
  else ret Joi.return_value.

Definition card_expire_schema : Joi.schema :=
  Joi.string_
  |> Joi.custom card_expire_custom
  |> Joi.required
  |> Joi.messages [("string.empty", "Required");
                   ("string.month", "Invalid expire month");
                   ("string.year", "Invalid expire year");
                   ("any.required", "Required")].

Definition cvv_custom (value : JS.value) : Logged Joi.custom_result :=
  if JS.truthy value then
    match value with
    | JS.str text =>
        (ok <- logged (call_validateCardCVC text (card_type models))
                      (validateCardCVC text (card_type models)) ;;
         if negb ok then ret (Joi.helpers_error "string.invalid")
         else ret Joi.return_value)%logged
    | _ => ret Joi.return_value
    end
  else ret Joi.return_value.

Definition cvv_schema : Joi.schema :=
  Joi.string_
  |> Joi.custom cvv_custom
  |> Joi.length 3
  |> Joi.required
  |> Joi.messages [("string.invalid", "Invalid cvc");
                   ("string.empty", "Required");
                   ("string.length", "Maximum 3 digits");
                   ("any.required", "Required")].

End Schema.

(** The keys of [Models]. *)
Inductive key : Type :=
| k_email | k_card_number | k_card_expire | k_cvv | k_card_type.

(** Modelled from the spec: the form-state binder (react-use-models) is not
    among the sources. Its [updateModel(name, value)] writes one field of
    FieldValues and leaves the others as they are. *)
Definition updateModel (k : key) (v : option string) (m : Models) : Models :=
  match k with
  | k_email =>
      {| email := v; card_number := card_number m;
         card_expire := card_expire m; cvv := cvv m;
         card_type := card_type m |}
  | k_card_number =>
      {| email := email m; card_number := v;
         card_expire := card_expire m; cvv := cvv m;
         card_type := card_type m |}
  | k_card_expire =>
      {| email := email m; card_number := card_number m;
         card_expire := v; cvv := cvv m; card_type := card_type m |}
  | k_cvv =>
      {| email := email m; card_number := card_number m;
         card_expire := card_expire m; cvv := v; card_type := card_type m |}
  | k_card_type =>
      {| email := email m; card_number := card_number m;
         card_expire := card_expire m; cvv := cvv m; card_type := v |}
  end.

(** Modelled from the spec: the binding [register.input({ name })] gives an
    input with no handler of its own; a change stores the typed text under
    that name. *)
Definition register_input_onChange (k : key) (raw : string) (m : Models)
  : Models :=
  updateModel k (Some raw) m.

(** [pct === 'visa'] on a [string | null]. *)
Definition strict_eq (pct : option string) (lit : string) : bool :=
  match pct with
  | Some s => s =? lit
  | None => false
  end.

Section Formatter.

Context {U : CardUtility}.

(** The brand [formatter.cardNumber] keeps from [parseCardType]. *)
Definition detect (value : string) : option string :=
  let cardType := None in
  let pct := parseCardType value in
  if strict_eq pct "visa" then Some "visa"
  else if strict_eq pct "mastercard" then Some "mastercard"
  else cardType.

Definition formatter_cardNumber (raw : string) (m : Models) : Models :=
  let value := formatCardNumber raw in
  let cardType := detect value in
  m |> updateModel k_card_type cardType
    |> updateModel k_card_number (Some value).

Definition formatter_cardExpire (raw : string) (m : Models) : Models :=
  let value := formatCardExpiry raw in
  m |> updateModel k_card_expire (Some value).

(** The two handlers again, with their calls into the card utility
    logged. *)
Definition formatter_cardNumber_logged (raw : string) (m : Models)
  : Logged Models :=
  (value <- logged (call_formatCardNumber raw) (formatCardNumber raw) ;;
   pct <- logged (call_parseCardType value) (parseCardType value) ;;
   let cardType :=
     if strict_eq pct "visa" then Some "visa"
     else if strict_eq pct "mastercard" then Some "mastercard"
     else None in
   ret (m |> updateModel k_card_type cardType
          |> updateModel k_card_number (Some value)))%logged.

Definition formatter_cardExpire_logged (raw : string) (m : Models)
  : Logged Models :=
  (value <- logged (call_formatCardExpiry raw) (formatCardExpiry raw) ;;
   ret (m |> updateModel k_card_expire (Some value)))%logged.

End Formatter.

(** ** The validator hook's state *)

(** An entry of [state.$errors[field]]; [getErrors] reads its [$message]. *)
Record entry : Type := mkEntry { dollar_message : string }.

Record State : Type := mkState {
  dollar_data : Models;
  dollar_errors : key -> list entry;
  dollar_auto_invalid : bool
}.

Definition getErrors (state : State) (field : key) : string :=
  JS.join "," (map dollar_message (dollar_errors state field)).

(** What a submit does to the outside: the event's default is prevented,
    the caller's callback is called. *)
Inductive effect : Type :=
| preventDefault
| onSuccess (values : Models).

Definition onSubmit (state : State) : list effect :=
  [preventDefault; onSuccess (dollar_data state)].

(** The arguments the callback was called with, in order. *)
Definition callbacks (out : list effect) : list Models :=
  flat_map (fun e => match e with
                     | onSuccess values => [values]
                     | preventDefault => []
                     end) out.

(** ** Rendering *)

Record Props : Type := mkProps {
  loading : option bool;
  submitText : option string
}.

Definition default {A} (d : A) (v : option A) : A :=
  match v with
  | Some a => a
  | None => d
  end.

(** [{getErrors(f) && <ErrorMessage>...}]: the region exists when the
    string is not empty. *)
Definition error_region (state : State) (field : key) : option string :=
  let text := getErrors state field in
  if text =? EmptyString then None else Some text.

Record View : Type := mkView {
  email_label_error : bool;
  card_label_error : bool;
  visa_active : bool;
  mastercard_active : bool;
  email_message : option string;
  card_number_message : option string;
  card_expire_message : option string;
  cvv_message : option string;
  disabled : bool;
  button_text : string
}.

Definition render (props : Props) (models : Models) (state : State) : View :=
  {| email_label_error := negb (getErrors state k_email =? EmptyString);
     card_label_error := negb (getErrors state k_card_number =? EmptyString);
     visa_active := strict_eq (card_type models) "visa";
     mastercard_active := strict_eq (card_type models) "mastercard";
     email_message := error_region state k_email;
     card_number_message := error_region state k_card_number;
     card_expire_message := error_region state k_card_expire;
     cvv_message := error_region state k_cvv;
     disabled := dollar_auto_invalid state || default false (loading props);
     button_text := default "Submit" (submitText props) |}.

(** The brand icon of [index.styled]: [opacity: active ? 1 : 0.5], with
    [active] defaulting to false. *)
Definition CardType_opacity (active : option bool) : string :=
  if default false active then "1" else "0.5".

(** ** Field validation, as the validator runs the schema *)

Section Check.

Context {U : CardUtility} {I : Joi.Internals}.
Variable prefs : Joi.Prefs.

(** [models] is the closure the custom predicates read [card_type] from,
    [now] the clock of the run. The label a default message shows is
    [value], whichever the field. *)
Variable models : Models.
Variable now : JS.Date.

Definition check_email (v : JS.value) : Logged (list Joi.detail) :=
  Joi.validate prefs "value" email_schema v.

Definition check_card_number (v : JS.value) : Logged (list Joi.detail) :=
  Joi.validate prefs "value" (card_number_schema models) v.

Definition check_card_expire (v : JS.value) : Logged (list Joi.detail) :=
  Joi.validate prefs "value" (card_expire_schema now) v.

Definition check_cvv (v : JS.value) : Logged (list Joi.detail) :=
  Joi.validate prefs "value" (cvv_schema models) v.

End Check.

(** The two tests of the expiry predicate, on a parsed expiry. *)
Definition month_out_of_range (now : JS.Date) (my : Expiry) : bool :=
  JS.gt (month my) (JS.Num 12)
  || JS.lt (month my) (JS.Num (JS.getMonth now + 1)).

Definition year_out_of_range (now : JS.Date) (my : Expiry) : bool :=
  JS.isNaN (year my) || JS.lt (year my) (JS.Num (JS.getFullYear now)).

(** The messages of a run, and the codes. *)
Definition texts (r : Logged (list Joi.detail)) : list string :=
  map Joi.message (result r).

Definition codes (r : Logged (list Joi.detail)) : list string :=
  map Joi.type_ (result r).

(** ** The component as a transition system *)

Record Component : Type := mkComponent {
  models : Models;
  state : State
}.

Definition mount (s : State) : Component :=
  {| models := defaultState; state := s |}.

Inductive event : Type :=
| change_email (raw : string)
| change_card_number (raw : string)
| change_card_expire (raw : string)
| change_cvv (raw : string)
| sync
| submit.

Section Steps.

Context {U : CardUtility}.

(** One event: the component before, the effects on the outside, the
    component after. The change handlers and [onSubmit] are the source's.
    Modelled from the spec: the validator hook (react-joi) is not among the
    sources; its [setData(models)], run by the effect on [models], makes the
    validator's data the current models, and what the hook derives from it
    (errors, flags) is left open. *)
Inductive step : Component -> event -> list effect -> Component -> Prop :=
| step_email c raw :
    step c (change_email raw) []
         (mkComponent (register_input_onChange k_email raw (models c))
                      (state c))
| step_card_number c raw :
    step c (change_card_number raw) []
         (mkComponent (formatter_cardNumber raw (models c)) (state c))
| step_card_expire c raw :
    step c (change_card_expire raw) []
         (mkComponent (formatter_cardExpire raw (models c)) (state c))
| step_cvv c raw :
    step c (change_cvv raw) []
         (mkComponent (register_input_onChange k_cvv raw (models c))
                      (state c))
| step_sync c s' :
    dollar_data s' = models c ->
    step c sync [] (mkComponent (models c) s')
| step_submit c :
    step c submit (onSubmit (state c)) c.

Inductive reachable : Component -> Prop :=
| reach_mount s : dollar_data s = defaultState -> reachable (mount s)
| reach_step c e out c' : reachable c -> step c e out c' -> reachable c'.

(** The brand that goes with a stored card number. *)
Definition brand_of_number (m : Models) : option string :=
  match card_number m with
  | Some value => detect value
  | None => None
  end.

End Steps.

(** ** A card utility to run the component on

    A small utility in the manner of creditcardutils, with three brands in
    its table. The statements below hold for every [CardUtility]; this one
    serves to evaluate the component on concrete inputs. *)

Module Sample.

Import Address.

Definition chars := list_ascii_of_string.
Definition text := string_of_list_ascii.

Definition is_space (c : ascii) : bool :=
  one_of " " c || in_range 9 13 c.

Definition all_digits (s : string) : bool :=
  negb (s =? EmptyString) && forallb is_digit (chars s).

Definition digit_value (c : ascii) : Z :=
  (Z.of_nat (nat_of_ascii c) - 48)%Z.

(** [luhnCheck]: from the right, every second digit doubled, nine taken
    off a two-digit product, the sum a multiple of ten. *)
Fixpoint luhn_sum (odd : bool) (ds : list ascii) : Z :=
  match ds with
  | [] => 0%Z
  | d :: rest =>
      let odd' := negb odd in
      let v := if odd' then (2 * digit_value d)%Z else digit_value d in
      let v := if (v >? 9)%Z then (v - 9)%Z else v in
      (v + luhn_sum odd' rest)%Z
  end.

Definition luhnCheck (num : string) : bool :=
  (luhn_sum true (rev (chars num)) mod 10 =? 0)%Z.

Record card : Type := mkCard {
  type : string;
  prefixes : list string;
  lengths : list nat;
  cvcLength : list nat
}.

Definition cards : list card :=
  [ mkCard "visa" ["4"] [13; 16]%nat [3]%nat;
    mkCard "mastercard"
           ["51"; "52"; "53"; "54"; "55"; "22"; "23"; "24"; "25"; "26"; "27"]
           [16]%nat [3]%nat;
    mkCard "amex" ["34"; "37"] [15]%nat [3; 4]%nat ].

Definition cardFromNumber (num : string) : option card :=
  let num := text (filter is_digit (chars num)) in
  find (fun c => existsb (fun p => String.prefix p num) (prefixes c)) cards.

Definition cardFromType (brand : option string) : option card :=
  match brand with
  | Some b => find (fun c => type c =? b) cards
  | None => None
  end.

Definition mem (n : nat) (l : list nat) : bool := existsb (Nat.eqb n) l.

Definition validateCardNumber (num : string) : bool :=
  let num := text (filter (fun c => negb (is_space c || one_of "-" c))
                          (chars num)) in
  all_digits num
  && match cardFromNumber num with
     | Some c => mem (String.length num) (lengths c) && luhnCheck num
     | None => false
     end.

Definition parseCardType (num : string) : option string :=
  if num =? EmptyString then None
  else option_map type (cardFromNumber num).

(** Groups of four, one space between them. *)
Fixpoint group4 (fuel : nat) (ds : list ascii) : list ascii :=
  match fuel with
  | O => ds
  | S fuel' =>
      match ds with
      | a :: b :: c :: d :: (_ :: _) as rest =>
          a :: b :: c :: d :: " "%char :: group4 fuel' rest
      | _ => ds
      end
  end.

(** Groups of the given sizes, the empty ones left out, one space between
    them; digits past the last group are dropped. *)
Fixpoint groups (sizes : list nat) (ds : list ascii) : list ascii :=
  match sizes, ds with
  | _, [] => []
  | [], _ => []
  | n :: sizes', _ =>
      match skipn n ds with
      | [] => firstn n ds
      | rest =>
          match sizes' with
          | [] => firstn n ds
          | _ => firstn n ds ++ " "%char :: groups sizes' rest
          end
      end
  end.

(** [formatCardNumber]: the digits of the text, cut at the brand's longest
    length and grouped, by four or, for amex, 4-6-5; the digits alone when
    no brand matches. *)
Definition formatCardNumber (num : string) : string :=
  let ds := filter is_digit (chars num) in
  match cardFromNumber num with
  | None => text ds
  | Some c =>
      let ds := firstn (last (lengths c) 0%nat) ds in
      if type c =? "amex" then text (groups [4; 6; 5]%nat ds)
      else text (group4 (List.length ds) ds)
  end.

Fixpoint trim_left (cs : list ascii) : list ascii :=
  match cs with
  | c :: rest => if is_space c then trim_left rest else cs
  | [] => []
  end.

Definition trim (s : string) : string :=
  text (rev (trim_left (rev (trim_left (chars s))))).

Definition validateCardCVC (cvc : string) (brand : option string) : bool :=
  let cvc := trim cvc in
  all_digits cvc
  && match cardFromType brand with
     | Some c => mem (String.length cvc) (cvcLength c)
     | None => (3 <=? String.length cvc)%nat && (String.length cvc <=? 4)%nat
     end.

(** The leading digits of a list, and what follows them. *)
Fixpoint span (p : ascii -> bool) (cs : list ascii)
  : list ascii * list ascii :=
  match cs with
  | c :: rest =>
      if p c then let '(a, b) := span p rest in (c :: a, b) else ([], cs)
  | [] => ([], [])
  end.

Definition decimal (ds : list ascii) : Z :=
  fold_left (fun acc d => (10 * acc + digit_value d)%Z) ds 0%Z.

(** [parseInt(s, 10)]. *)
Definition parseInt (s : string) : JS.number :=
  let cs := trim_left (chars s) in
  let '(sign, cs) :=
    match cs with
    | "-"%char :: rest => ((-1)%Z, rest)
    | "+"%char :: rest => (1%Z, rest)
    | _ => (1%Z, cs)
    end in
  match fst (span is_digit cs) with
  | [] => JS.NaN
  | ds => JS.Num (sign * decimal ds)
  end.

Definition century (now : JS.Date) : string :=
  substring 0 2 (NilZero.string_of_int (Z.to_int (JS.getFullYear now))).

(** [parseCardExpiry]: month and year around the slash, a two-digit year
    completed with the current century; a missing year parses to NaN. *)
Definition parseCardExpiry (now : JS.Date) (value : string) : Expiry :=
  let value := text (filter (fun c => negb (is_space c)) (chars value)) in
  match split "/" value with
  | [] => mkExpiry JS.NaN JS.NaN
  | [m] => mkExpiry (parseInt m) JS.NaN
  | m :: y :: _ =>
      let y := if (String.length y =? 2)%nat && all_digits y
               then (century now ++ y)%string else y in
      mkExpiry (parseInt m) (parseInt y)
  end.

(** [formatCardExpiry]: up to two month digits, what separates them from
    the year, up to four year digits. A year makes the separator [ / ]; a
    separator typed back to [ /] takes the last month digit away; two month
    digits or any separator give [ / ]; a single month digit above 1 is
    padded. *)
Definition formatCardExpiry (expiry : string) : string :=
  let cs := snd (span (fun c => negb (is_digit c)) (chars expiry)) in
  let '(mon, cs) := span is_digit cs in
  let '(mon, cs) := (firstn 2 mon, skipn 2 mon ++ cs) in
  let '(sep, cs) := span (fun c => negb (is_digit c)) cs in
  let year := firstn 4 (fst (span is_digit cs)) in
  match mon with
  | [] => EmptyString
  | _ =>
      if negb (List.length year =? 0)%nat
      then text (mon ++ chars " / " ++ year)
      else if text sep =? " /"
      then text (firstn 1 mon)
      else if (List.length mon =? 2)%nat || negb (List.length sep =? 0)%nat
      then text (mon ++ chars " / ")
      else match mon with
           | [d] => if one_of "01" d then text mon
                    else text ("0"%char :: mon ++ chars " / ")
           | _ => text mon
           end
  end.

(** The utility at a given clock reading. *)
Definition utility (now : JS.Date) : CardUtility :=
  Build_CardUtility validateCardNumber formatCardNumber formatCardExpiry
                    parseCardType (parseCardExpiry now) validateCardCVC.

(** A label as a default message shows it, between double quotes. *)
Definition quoted (label : string) : string :=
  (String (ascii_of_nat 34) label ++ String (ascii_of_nat 34) EmptyString)%string.

(** The catalogue's texts for the errors of presence and base type; any
    other code is shown by its name. *)
Definition template (code label : string) : string :=
  if code =? "string.base" then (quoted label ++ " must be a string")%string
  else if code =? "string.empty"
  then (quoted label ++ " is not allowed to be empty")%string
  else if code =? "any.required" then (quoted label ++ " is required")%string
  else if code =? "string.email"
  then (quoted label ++ " must be a valid email")%string
  else (quoted label ++ ": " ++ code)%string.

(** Internals to run with: no non-ASCII address passes. *)
Definition internals : Joi.Internals :=
  Joi.Build_Internals (fun _ _ => false) template.

(** November 2026. *)
Definition now : JS.Date := JS.mkDate 10 2026.

Definition utility_now : CardUtility := utility now.

(** A validator that stops at the first error, and one that collects all
    of them. *)
Definition stops : Joi.Prefs := Joi.mkPrefs true.
Definition collects : Joi.Prefs := Joi.mkPrefs false.

(** Models with a brand stored. *)
Definition visa : Models :=
  updateModel k_card_type (Some "visa") defaultState.
Definition mastercard : Models :=
  updateModel k_card_type (Some "mastercard") defaultState.

(** A validator state at mount: the initial data, nothing reported yet. *)
Definition initial : State := mkState defaultState (fun _ => []) true.

End Sample.

(** * Properties *)

(** ** The pipeline on a single field *)

Section PipelineFacts.

Context {I : Joi.Internals}.
Variable prefs : Joi.Prefs.

Lemma eqb_empty_false (text : string) :
  text <> EmptyString -> (text =? EmptyString) = false.
Proof. intros H. destruct (String.eqb_spec text EmptyString); congruence. Qed.

Lemma truthy_str (text : string) :
  text <> EmptyString -> JS.truthy (JS.str text) = true.
Proof. intros H. simpl. now rewrite eqb_empty_false. Qed.

Lemma falsy_str (text : string) :
  JS.truthy (JS.str text) = false -> text = EmptyString.
Proof.
  simpl. destruct (String.eqb_spec text EmptyString); [auto | discriminate].
Qed.

(** A non-empty string reaches the rules. *)
Lemma validate_str (label : string) (s : Joi.schema) (text : string) :
  text <> EmptyString ->
  Joi.validate prefs label s (JS.str text) =
  (map (Joi.report s label) (result (Joi.run_rules prefs (Joi.rules s) text)),
   calls (Joi.run_rules prefs (Joi.rules s) text)).
Proof.
  intros H. unfold Joi.validate. rewrite (eqb_empty_false _ H).
  unfold bind, ret, result, calls.
  destruct (Joi.run_rules prefs (Joi.rules s) text) as [cs l]. simpl.
  now rewrite app_nil_r.
Qed.

(** A schema whose only rule is a custom method reports what the method
    returns, whatever the preferences. *)
Lemma run_rules_custom (method : JS.value -> Logged Joi.custom_result)
      (text : string) :
  Joi.run_rules prefs [Joi.rule_custom method] text =
  (match result (method (JS.str text)) with
   | Joi.helpers_error code => [code]
   | Joi.return_value => []
   end, calls (method (JS.str text))).
Proof.
  unfold result, calls. simpl. unfold bind, ret.
  destruct (method (JS.str text)) as [[code |] l]; simpl;
    [destruct (Joi.abortEarly prefs) |]; simpl;
    now rewrite ?app_nil_r.
Qed.

(** The empty string and an absent value of a required field. *)
Lemma validate_empty (label : string) (s : Joi.schema) :
  result (Joi.validate prefs label s (JS.str EmptyString)) =
  [Joi.report s label "string.empty"].
Proof. reflexivity. Qed.

Lemma validate_undefined (label : string) (s : Joi.schema) :
  Joi.flag_presence s = Joi.required_ ->
  result (Joi.validate prefs label s JS.undefined) =
  [Joi.report s label "any.required"].
Proof. intros H. unfold Joi.validate. now rewrite H. Qed.

(** Nothing but a non-empty string makes the pipeline call a rule. *)
Lemma validate_falsy_calls (label : string) (s : Joi.schema) (v : JS.value) :
  JS.truthy v = false -> calls (Joi.validate prefs label s v) = [].
Proof.
  destruct v as [| | text]; simpl; try reflexivity.
  destruct (text =? EmptyString); [reflexivity | discriminate].
Qed.

End PipelineFacts.

(** ** Card number *)

Section CardNumber.

Context {U : CardUtility} {I : Joi.Internals}.
Variable prefs : Joi.Prefs.
Variable m : Models.

(** The whole outcome for a non-empty card number. *)
Lemma card_number_texts (text : string) :
  text <> EmptyString ->
  texts (check_card_number prefs m (JS.str text)) =
  if negb (validateCardNumber text) then ["Must be a valid card"]
  else match card_type m with
       | None => ["Must be a visa or master"]
       | Some _ => []
       end.
Proof.
  intros H. unfold texts, check_card_number.
  rewrite (validate_str _ _ _ _ H).
  change (Joi.rules (card_number_schema m))
    with [Joi.rule_custom (card_number_custom m)].
  rewrite run_rules_custom. unfold result. cbn [fst].
  unfold card_number_custom. rewrite (truthy_str _ H).
  unfold bind, logged, ret.
  destruct (validateCardNumber text); simpl; [| reflexivity].
  destruct (card_type m); reflexivity.
Qed.

End CardNumber.

(** C1. A non-empty card number is accepted only when it passes the card
    utility's number check and a brand is detected. When the number check
    fails the one message is Must be a valid card; when it passes and the
    brand is null the one message is Must be a visa or master. The empty
    string and an absent value give Required. *)
Theorem card_number_validation {U : CardUtility} {I : Joi.Internals}
        (prefs : Joi.Prefs) (m : Models) (text : string) :
  text <> EmptyString ->
  (validateCardNumber text = false ->
   texts (check_card_number prefs m (JS.str text)) = ["Must be a valid card"])
  /\ (validateCardNumber text = true -> card_type m = None ->
      texts (check_card_number prefs m (JS.str text))
      = ["Must be a visa or master"])
  /\ (result (check_card_number prefs m (JS.str text)) = [] <->
      validateCardNumber text = true /\ card_type m <> None)
  /\ texts (check_card_number prefs m (JS.str EmptyString)) = ["Required"]
  /\ texts (check_card_number prefs m JS.undefined) = ["Required"].
Proof.
  intros H. pose proof (card_number_texts prefs m text H) as T.
  split; [| split; [| split; [| split; reflexivity]]].
  - intros E. now rewrite T, E.
  - intros E N. now rewrite T, E, N.
  - unfold texts in T. split.
    + intros R. rewrite R in T. simpl in T.
      destruct (validateCardNumber text); simpl in T; [| discriminate].
      destruct (card_type m); [split; congruence | discriminate].
    + intros [E N]. rewrite E in T. simpl in T.
      destruct (card_type m); [| congruence].
      now apply map_eq_nil in T.
Qed.

(** ** Expiry *)

Section CardExpire.

Context {U : CardUtility} {I : Joi.Internals}.
Variable prefs : Joi.Prefs.
Variable now : JS.Date.

(** The whole outcome for a non-empty expiry: the month test comes first
    and ends the predicate when it fires. *)
Lemma card_expire_texts (text : string) :
  text <> EmptyString ->
  texts (check_card_expire prefs now (JS.str text)) =
  if month_out_of_range now (parseCardExpiry text)
  then ["Invalid expire month"]
  else if year_out_of_range now (parseCardExpiry text)
       then ["Invalid expire year"]
       else [].
Proof.
  intros H. unfold texts, check_card_expire.
  rewrite (validate_str _ _ _ _ H).
  change (Joi.rules (card_expire_schema now))
    with [Joi.rule_custom (card_expire_custom now)].
  rewrite run_rules_custom. unfold result. cbn [fst].
  unfold card_expire_custom. rewrite (truthy_str _ H).
  unfold bind, logged, ret, month_out_of_range, year_out_of_range.
  destruct (JS.gt (month (parseCardExpiry text)) (JS.Num 12)
            || JS.lt (month (parseCardExpiry text))
                     (JS.Num (JS.getMonth now + 1))); [reflexivity |].
  destruct (JS.isNaN (year (parseCardExpiry text))
            || JS.lt (year (parseCardExpiry text))
                     (JS.Num (JS.getFullYear now))); reflexivity.
Qed.

(** The tests on numbers: NaN fails neither comparison of the month test
    and fails the year test. *)
Lemma month_out_of_range_num (mo : Z) (yr : JS.number) :
  month_out_of_range now (mkExpiry (JS.Num mo) yr) = true <->
  (mo > 12 \/ mo < JS.getMonth now + 1)%Z.
Proof.
  unfold month_out_of_range. simpl. rewrite orb_true_iff.
  rewrite Z.gtb_ltb, !Z.ltb_lt. lia.
Qed.

Lemma year_out_of_range_num (mo : JS.number) (yr : Z) :
  year_out_of_range now (mkExpiry mo (JS.Num yr)) = true <->
  (yr < JS.getFullYear now)%Z.
Proof. unfold year_out_of_range. simpl. now rewrite Z.ltb_lt. Qed.

Lemma out_of_range_NaN (mo yr : JS.number) :
  month_out_of_range now (mkExpiry JS.NaN yr) = false
  /\ year_out_of_range now (mkExpiry mo JS.NaN) = true.
Proof. now split. Qed.

Lemma card_expire_accepted (text : string) :
  text <> EmptyString ->
  result (check_card_expire prefs now (JS.str text)) = [] <->
  month_out_of_range now (parseCardExpiry text) = false
  /\ year_out_of_range now (parseCardExpiry text) = false.
Proof.
  intros H. pose proof (card_expire_texts text H) as T. unfold texts in T.
  split.
  - intros R. rewrite R in T. simpl in T.
    destruct (month_out_of_range _); [discriminate |].
    destruct (year_out_of_range _); [discriminate | auto].
  - intros [M Y]. rewrite M, Y in T. now apply map_eq_nil in T.
Qed.

End CardExpire.

(** C2, as the code has it. A non-empty expiry is parsed into month and
    year. When month > 12 or month < the current calendar month the one
    message is Invalid expire month. When the month test passes and the year
    is not numeric or is below the current calendar year the one message is
    Invalid expire year. The value is accepted exactly when neither test
    fires. An expiry whose parsed month is 13, such as 13/30, gets the month
    message. *)
Theorem card_expire_validation {U : CardUtility} {I : Joi.Internals}
        (prefs : Joi.Prefs) (now : JS.Date) (text : string) :
  text <> EmptyString ->
  (month_out_of_range now (parseCardExpiry text) = true ->
   texts (check_card_expire prefs now (JS.str text))
   = ["Invalid expire month"])
  /\ (month_out_of_range now (parseCardExpiry text) = false ->
      year_out_of_range now (parseCardExpiry text) = true ->
      texts (check_card_expire prefs now (JS.str text))
      = ["Invalid expire year"])
  /\ (result (check_card_expire prefs now (JS.str text)) = [] <->
      month_out_of_range now (parseCardExpiry text) = false
      /\ year_out_of_range now (parseCardExpiry text) = false)
  /\ (month (parseCardExpiry text) = JS.Num 13 ->
      texts (check_card_expire prefs now (JS.str text))
      = ["Invalid expire month"]).
Proof.
  intros H. pose proof (card_expire_texts prefs now text H) as T.
  split; [| split; [| split]].
  - intros M. now rewrite T, M.
  - intros M Y. now rewrite T, M, Y.
  - now apply card_expire_accepted.
  - intros M. rewrite T. unfold month_out_of_range. now rewrite M.
Qed.

(** C3, as the code has it. An expiry whose parsed month is below the
    current calendar month is rejected with Invalid expire month also when
    its parsed year is above the current calendar year: the month test
    compares with the current month number whatever the year. *)
Theorem past_month_future_year_rejected
        {U : CardUtility} {I : Joi.Internals}
        (prefs : Joi.Prefs) (now : JS.Date) (text : string) (mo y : Z) :
  text <> EmptyString ->
  parseCardExpiry text = mkExpiry (JS.Num mo) (JS.Num y) ->
  (mo < JS.getMonth now + 1)%Z ->
  (y > JS.getFullYear now)%Z ->
  texts (check_card_expire prefs now (JS.str text)) = ["Invalid expire month"]
  /\ result (check_card_expire prefs now (JS.str text)) <> [].
Proof.
  intros H P M Y.
  assert (T : texts (check_card_expire prefs now (JS.str text))
              = ["Invalid expire month"]).
  { rewrite (card_expire_texts prefs now text H), P.
    unfold month_out_of_range. simpl.
    destruct (Z.ltb_spec mo (JS.getMonth now + 1)); [| lia].
    now rewrite orb_true_r. }
  split; [exact T |].
  intros R. unfold texts in T. rewrite R in T. discriminate.
Qed.

(** ** CVV *)

Section Cvv.

Context {U : CardUtility} {I : Joi.Internals}.
Variable prefs : Joi.Prefs.
Variable m : Models.

(** The whole outcome for a non-empty CVV. The CVC check is the first
    rule and the length the second; whether the second still runs after
    the first has failed is the preference [abortEarly]. *)
Lemma cvv_texts (text : string) :
  text <> EmptyString ->
  texts (check_cvv prefs m (JS.str text)) =
  let too := if (String.length text =? 3)%nat then []
             else ["Maximum 3 digits"] in
  if validateCardCVC text (card_type m) then too
  else if Joi.abortEarly prefs then ["Invalid cvc"]
       else "Invalid cvc" :: too.
Proof.
  intros H. unfold texts, check_cvv.
  rewrite (validate_str _ _ _ _ H).
  change (Joi.rules (cvv_schema m))
    with [Joi.rule_custom (cvv_custom m); Joi.rule_length 3].
  unfold result, Joi.run_rules, Joi.apply_rule, cvv_custom.
  rewrite (truthy_str _ H). unfold bind, logged, ret.
  destruct (validateCardCVC text (card_type m));
    destruct (Joi.abortEarly prefs);
    destruct (String.length text =? 3)%nat; reflexivity.
Qed.

End Cvv.

(** C4, as the code has it. A non-empty CVV is accepted exactly when it is
    3 characters long and passes the card utility's CVC check against the
    detected brand. The CVC check is the first rule: when it fails the first
    message is Invalid cvc, and it is the only one when the run stops at the
    first error. Maximum 3 digits is the message of a wrong length when the
    CVC check passes, and is among the messages whenever the run collects
    all errors. The empty string and an absent value give Required. The CVV
    12 is rejected whatever the brand. *)
Theorem cvv_validation {U : CardUtility} {I : Joi.Internals}
        (prefs : Joi.Prefs) (m : Models) (text : string) :
  text <> EmptyString ->
  (result (check_cvv prefs m (JS.str text)) = [] <->
   String.length text = 3%nat /\ validateCardCVC text (card_type m) = true)
  /\ (validateCardCVC text (card_type m) = false ->
      hd_error (texts (check_cvv prefs m (JS.str text))) = Some "Invalid cvc")
  /\ (validateCardCVC text (card_type m) = false ->
      Joi.abortEarly prefs = true ->
      texts (check_cvv prefs m (JS.str text)) = ["Invalid cvc"])
  /\ (validateCardCVC text (card_type m) = true ->
      String.length text <> 3%nat ->
      texts (check_cvv prefs m (JS.str text)) = ["Maximum 3 digits"])
  /\ (Joi.abortEarly prefs = false ->
      String.length text <> 3%nat ->
      In "Maximum 3 digits" (texts (check_cvv prefs m (JS.str text))))
  /\ texts (check_cvv prefs m (JS.str EmptyString)) = ["Required"]
  /\ texts (check_cvv prefs m JS.undefined) = ["Required"]
  /\ result (check_cvv prefs m (JS.str "12")) <> [].
Proof.
  intros H. pose proof (cvv_texts prefs m text H) as T. cbv zeta in T.
  assert (L : String.length text <> 3%nat ->
              (String.length text =? 3)%nat = false)
    by (intros N; now apply Nat.eqb_neq).
  split; [| split; [| split; [| split; [| split; [| split; [| split]]]]]].
  - unfold texts in T. split.
    + intros R. rewrite R in T. simpl in T.
      destruct (validateCardCVC text (card_type m));
        [| destruct (Joi.abortEarly prefs); discriminate].
      destruct (Nat.eqb_spec (String.length text) 3); [auto | discriminate].
    + intros [E C]. rewrite C, E in T. now apply map_eq_nil in T.
  - intros C. rewrite T, C. now destruct (Joi.abortEarly prefs).
  - intros C A. now rewrite T, C, A.
  - intros C N. now rewrite T, C, (L N).
  - intros A N. rewrite T, A, (L N).
    destruct (validateCardCVC text (card_type m)); simpl; auto.
  - reflexivity.
  - reflexivity.
  - intros R.
    assert (T12 := cvv_texts prefs m "12" ltac:(discriminate)).
    unfold texts in T12. rewrite R in T12. simpl in T12.
    destruct (validateCardCVC "12" (card_type m));
      [| destruct (Joi.abortEarly prefs)]; discriminate.
Qed.

(** ** Email *)

Section Email.

Context {I : Joi.Internals}.
Variable prefs : Joi.Prefs.

Lemma email_texts (text : string) :
  texts (check_email prefs (JS.str text)) =
  if text =? EmptyString then ["Required"]
  else if Joi.isEmailValid Joi.allow_false text then []
       else ["Must be a valid email"].
Proof.
  destruct (String.eqb_spec text EmptyString) as [-> | H];
    [reflexivity |].
  unfold texts, check_email. rewrite (validate_str _ _ _ _ H).
  change (Joi.rules email_schema) with [Joi.rule_email Joi.allow_false].
  unfold result, Joi.run_rules, Joi.apply_rule, bind, ret.
  destruct (Joi.isEmailValid Joi.allow_false text); [reflexivity |].
  now destruct (Joi.abortEarly prefs).
Qed.

(** With the allow-list off, an ASCII address is judged by its shape
    alone. *)
Lemma email_tlds_off (text : string) :
  Address.is_ascii text = true ->
  Joi.isEmailValid Joi.allow_false text = Address.isValidAscii None text.
Proof. intros A. unfold Joi.isEmailValid. now rewrite A. Qed.

End Email.

(** C6. The email field is required: the empty string and an absent value
    give Required. A non-empty value is accepted exactly when it matches the
    address grammar with the top-level-domain allow-list off, and otherwise
    gets Must be a valid email. Thus not-an-email is rejected with that
    message and user@example.anytld is accepted, although an allow-list
    without anytld would refuse it. *)
Theorem email_validation {I : Joi.Internals} (prefs : Joi.Prefs) :
  (forall text,
      texts (check_email prefs (JS.str text)) =
      if text =? EmptyString then ["Required"]
      else if Joi.isEmailValid Joi.allow_false text then []
           else ["Must be a valid email"])
  /\ texts (check_email prefs JS.undefined) = ["Required"]
  /\ (forall text, Address.is_ascii text = true ->
        Joi.isEmailValid Joi.allow_false text
        = Address.isValidAscii None text)
  /\ texts (check_email prefs (JS.str "not-an-email"))
     = ["Must be a valid email"]
  /\ result (check_email prefs (JS.str "user@example.anytld")) = []
  /\ Joi.isEmailValid (Joi.allow_list ["com"; "net"]) "user@example.anytld"
     = false.
Proof.
  split; [| split; [| split; [| split; [| split]]]].
  - apply email_texts.
  - reflexivity.
  - apply email_tlds_off.
  - now rewrite email_texts.
  - apply (map_eq_nil Joi.message).
    change (texts (check_email prefs (JS.str "user@example.anytld")) = []).
    now rewrite email_texts.
  - reflexivity.
Qed.

(** ** Empty and null values *)

(** C10, as the code has it. On an empty, null or absent value the custom
    predicates of card_expire and cvv skip their body: they return the
    value and call neither parseCardExpiry nor validateCardCVC. A
    validation run on such a value makes no call into the card utility and
    reports one error, never a month, year or CVC one. For the empty string
    and an absent value it is the required-field message, Required. For
    null it is the base-type error, string.base, for which the schema sets
    no text: the message is the validator's default for that code. *)
Theorem falsy_values_skip_predicates {U : CardUtility} {I : Joi.Internals}
        (prefs : Joi.Prefs) (m : Models) (now : JS.Date) (v : JS.value) :
  JS.truthy v = false ->
  card_expire_custom now v = (Joi.return_value, [])
  /\ cvv_custom m v = (Joi.return_value, [])
  /\ calls (check_card_expire prefs now v) = []
  /\ calls (check_cvv prefs m v) = []
  /\ codes (check_card_expire prefs now v) = codes (check_cvv prefs m v)
  /\ codes (check_cvv prefs m v)
     = [match v with
        | JS.undefined => "any.required"
        | JS.null => "string.base"
        | JS.str _ => "string.empty"
        end]
  /\ (v <> JS.null ->
      texts (check_card_expire prefs now v) = ["Required"]
      /\ texts (check_cvv prefs m v) = ["Required"])
  /\ (v = JS.null ->
      texts (check_card_expire prefs now v)
      = [Joi.template "string.base" "value"]
      /\ texts (check_cvv prefs m v)
         = [Joi.template "string.base" "value"]
      /\ Joi.lookup "string.base" (Joi.overrides (card_expire_schema now))
         = None
      /\ Joi.lookup "string.base" (Joi.overrides (cvv_schema m)) = None).
Proof.
  intros F.
  split; [| split; [| split; [| split; [| split; [| split; [| split]]]]]];
    [| | | | | | | intros ->; repeat split].
  - unfold card_expire_custom. now rewrite F.
  - unfold cvv_custom. now rewrite F.
  - now apply validate_falsy_calls.
  - now apply validate_falsy_calls.
  - destruct v as [| | text]; try reflexivity.
    rewrite (falsy_str _ F). reflexivity.
  - destruct v as [| | text]; try reflexivity.
    rewrite (falsy_str _ F). reflexivity.
  - intros N. destruct v as [| | text]; [now split | congruence |].
    rewrite (falsy_str _ F). now split.
Qed.

(** ** Joining messages *)

Lemma append_nil_r (s : string) : (s ++ EmptyString)%string = s.
Proof. induction s as [| c s IH]; simpl; [reflexivity | now rewrite IH]. Qed.

Lemma append_assoc (a b c : string) :
  ((a ++ b) ++ c)%string = (a ++ (b ++ c))%string.
Proof. induction a as [| x a IH]; simpl; [reflexivity | now rewrite IH]. Qed.

(** Past the first element, the accumulator only grows at its end. *)
Lemma join_from_acc (sep acc : string) (xs : list string) :
  JS.join_from sep false acc xs
  = (acc ++ JS.join_from sep false EmptyString xs)%string.
Proof.
  revert acc. induction xs as [| x xs IH]; intros acc; simpl.
  - now rewrite append_nil_r.
  - rewrite IH, (IH (sep ++ x)%string). now rewrite append_assoc.
Qed.

Lemma join_concat (sep : string) (xs : list string) :
  JS.join sep xs = String.concat sep xs.
Proof.
  unfold JS.join. destruct xs as [| x xs]; [reflexivity |].
  simpl JS.join_from. rewrite join_from_acc.
  revert x. induction xs as [| y ys IH]; intros x.
  - simpl. now rewrite append_nil_r.
  - simpl JS.join_from. rewrite join_from_acc.
    change (String.concat sep (x :: y :: ys))
      with (x ++ sep ++ String.concat sep (y :: ys))%string.
    rewrite <- (IH y). now rewrite append_assoc.
Qed.

(** C9. The displayed error of a field is its messages joined with a
    comma: one message stands alone, each further one follows a comma, and
    a field with no error displays the empty string. *)
Theorem getErrors_join (state : State) (field : key) :
  getErrors state field
  = String.concat "," (map dollar_message (dollar_errors state field))
  /\ (forall data flag,
        getErrors (mkState data (fun _ => []) flag) field = EmptyString)
  /\ (forall msg rest,
        dollar_errors state field = mkEntry msg :: rest ->
        getErrors state field
        = match rest with
          | [] => msg
          | _ => (msg ++ "," ++
                  String.concat "," (map dollar_message rest))%string
          end).
Proof.
  split; [apply join_concat | split; [reflexivity |]].
  intros msg rest E. unfold getErrors. rewrite join_concat, E.
  now destruct rest.
Qed.

(** ** Submit *)

(** C5. A submit first prevents the event's default and then calls the
    success callback once, with the validator's data. No test of the
    validity flags stands before the call, and the models play no part: the
    component is left as it was. *)
Theorem onSubmit_calls_back {U : CardUtility} (st : State) :
  onSubmit st = [preventDefault; onSuccess (dollar_data st)]
  /\ callbacks (onSubmit st) = [dollar_data st]
  /\ (forall data errors invalid,
        onSubmit (mkState data errors invalid)
        = [preventDefault; onSuccess data])
  /\ (forall c out c',
        step c submit out c' ->
        out = [preventDefault; onSuccess (dollar_data (state c))] /\ c' = c).
Proof.
  split; [reflexivity | split; [reflexivity | split; [reflexivity |]]].
  intros c out c' S. inversion S; subst. now split.
Qed.

(** ** The submit button *)

(** C8. The button's disabled flag is the validator's aggregate invalid
    flag or the loading prop: it is true exactly when the validator reports
    the form invalid or the caller passed loading as true. *)
Theorem submit_disabled (props : Props) (m : Models) (st : State) :
  disabled (render props m st)
  = (dollar_auto_invalid st || default false (loading props))
  /\ (disabled (render props m st) = true <->
      dollar_auto_invalid st = true \/ loading props = Some true).
Proof.
  split; [reflexivity |]. simpl.
  destruct (dollar_auto_invalid st), (loading props) as [[|] |]; simpl;
    split; intros H; auto; destruct H; discriminate.
Qed.

(** ** Card number and brand *)

Section Brand.

Context {U : CardUtility}.

Lemma detect_cases (value : string) :
  detect value = Some "visa" \/ detect value = Some "mastercard"
  \/ detect value = None.
Proof.
  unfold detect. destruct (strict_eq _ "visa"); [auto |].
  destruct (strict_eq _ "mastercard"); auto.
Qed.

Lemma strict_eq_true (pct : option string) (lit : string) :
  strict_eq pct lit = true <-> pct = Some lit.
Proof.
  destruct pct as [s |]; simpl; [| split; discriminate].
  rewrite String.eqb_eq. split; congruence.
Qed.

Lemma strict_eq_false (pct : option string) (lit : string) :
  pct <> Some lit -> strict_eq pct lit = false.
Proof.
  intros N. destruct (strict_eq pct lit) eqn:E; [| reflexivity].
  now apply strict_eq_true in E.
Qed.

Lemma formatter_cardNumber_models (raw : string) (m : Models) :
  formatter_cardNumber raw m
  = {| email := email m;
       card_number := Some (formatCardNumber raw);
       card_expire := card_expire m;
       cvv := cvv m;
       card_type := detect (formatCardNumber raw) |}.
Proof. reflexivity. Qed.

(** Every event keeps the stored brand the one detected from the stored
    number. *)
Lemma step_brand (c c' : Component) (e : event) (out : list effect) :
  step c e out c' ->
  card_type (models c) = brand_of_number (models c) ->
  card_type (models c') = brand_of_number (models c').
Proof.
  intros S B. inversion S; subst; simpl; auto.
Qed.

Lemma reachable_brand (c : Component) :
  reachable c -> card_type (models c) = brand_of_number (models c).
Proof.
  induction 1 as [s D | c e out c' R IH S]; [reflexivity |].
  now apply (step_brand c c' e out).
Qed.

End Brand.

(** C7. A change of the card-number field stores the formatted text and,
    in the same handler, the brand detected from the formatted text; visa
    and mastercard map to themselves and any other detection result to
    null; the other fields are left alone. So in every state the component
    reaches, card_type is visa, mastercard or null, and is the brand
    detected from the stored card number. *)
Theorem cardNumber_change_brand {U : CardUtility} :
  (forall raw m,
      formatter_cardNumber raw m
      = {| email := email m;
           card_number := Some (formatCardNumber raw);
           card_expire := card_expire m;
           cvv := cvv m;
           card_type := detect (formatCardNumber raw) |})
  /\ (forall value,
        (parseCardType value = Some "visa" -> detect value = Some "visa")
        /\ (parseCardType value = Some "mastercard" ->
            detect value = Some "mastercard")
        /\ (parseCardType value <> Some "visa" ->
            parseCardType value <> Some "mastercard" ->
            detect value = None))
  /\ (forall c,
        reachable c ->
        card_type (models c) = brand_of_number (models c)
        /\ (card_type (models c) = Some "visa"
            \/ card_type (models c) = Some "mastercard"
            \/ card_type (models c) = None)).
Proof.
  split; [apply @formatter_cardNumber_models | split].
  - intros value. unfold detect. split; [| split].
    + intros P. now rewrite P.
    + intros P. now rewrite P.
    + intros V M. now rewrite (strict_eq_false _ _ V), (strict_eq_false _ _ M).
  - intros c R. pose proof (reachable_brand c R) as B. split; [exact B |].
    rewrite B. unfold brand_of_number.
    destruct (card_number (models c)); [apply detect_cases | auto].
Qed.

(** ** The component on concrete inputs

    The sample utility, read in November 2026, a validator that stops at
    the first error ([stops]) and one that collects all of them
    ([collects]). *)

Section Runs.

#[local] Existing Instance Sample.utility_now.
#[local] Existing Instance Sample.internals.

Import Sample(stops, collects, visa, mastercard).

(** A number that passes the number check while no brand is stored. *)
Lemma card_number_validation_witness :
  texts (check_card_number stops defaultState (JS.str "4242 4242 4242 4242"))
  = ["Must be a visa or master"].
Proof.
  apply (card_number_validation stops defaultState "4242 4242 4242 4242");
    [discriminate | reflexivity | reflexivity].
Defined.

(** 13/30 parses to month 13. *)
Lemma card_expire_validation_witness :
  texts (check_card_expire stops Sample.now (JS.str "13/30"))
  = ["Invalid expire month"].
Proof.
  apply (card_expire_validation stops Sample.now "13/30");
    [discriminate | reflexivity].
Defined.

(** C2 as stated fails at 13 / 20: the year 2020 is below 2026, and the
    message is the month's, the year's is not reported. *)
Lemma card_expire_year_message_counterexample :
  parseCardExpiry "13 / 20" = mkExpiry (JS.Num 13) (JS.Num 2020)
  /\ JS.lt (year (parseCardExpiry "13 / 20"))
           (JS.Num (JS.getFullYear Sample.now)) = true
  /\ texts (check_card_expire stops Sample.now (JS.str "13 / 20"))
     = ["Invalid expire month"]
  /\ texts (check_card_expire collects Sample.now (JS.str "13 / 20"))
     = ["Invalid expire month"].
Proof. repeat split. Qed.

(** March 2028, read in November 2026. *)
Lemma past_month_future_year_rejected_witness :
  texts (check_card_expire stops Sample.now (JS.str "03 / 28"))
  = ["Invalid expire month"]
  /\ result (check_card_expire stops Sample.now (JS.str "03 / 28")) <> [].
Proof.
  apply (past_month_future_year_rejected stops Sample.now "03 / 28" 3 2028);
    [discriminate | reflexivity | reflexivity | reflexivity].
Defined.

(** C3 as stated fails at 03 / 28: the month 3 is below the current month
    11, the year 2028 is above 2026, and the value is not accepted. *)
Lemma past_month_future_year_counterexample :
  parseCardExpiry "03 / 28" = mkExpiry (JS.Num 3) (JS.Num 2028)
  /\ (3 <? JS.getMonth Sample.now + 1)%Z = true
  /\ (2028 >? JS.getFullYear Sample.now)%Z = true
  /\ result (check_card_expire stops Sample.now (JS.str "03 / 28"))
     = [Joi.mkDetail "string.month" "Invalid expire month"]
  /\ result (check_card_expire collects Sample.now (JS.str "03 / 28"))
     = [Joi.mkDetail "string.month" "Invalid expire month"].
Proof. repeat split. Qed.

(** The CVV 12 on a visa card, in a run that stops at the first error. *)
Lemma cvv_validation_witness :
  texts (check_cvv stops visa (JS.str "12")) = ["Invalid cvc"].
Proof.
  apply (cvv_validation stops visa "12");
    [discriminate | reflexivity | reflexivity].
Defined.

(** C4 as stated fails at 12: the CVC check refuses it for every brand, so
    a run that stops at the first error reports Invalid cvc and no length
    message, and a run that collects the errors reports Invalid cvc before
    the length message. *)
Lemma cvv_length_message_counterexample :
  validateCardCVC "12" (card_type visa) = false
  /\ validateCardCVC "12" (card_type mastercard) = false
  /\ validateCardCVC "12" (card_type defaultState) = false
  /\ texts (check_cvv stops visa (JS.str "12")) = ["Invalid cvc"]
  /\ texts (check_cvv stops mastercard (JS.str "12")) = ["Invalid cvc"]
  /\ texts (check_cvv stops defaultState (JS.str "12")) = ["Invalid cvc"]
  /\ texts (check_cvv collects visa (JS.str "12"))
     = ["Invalid cvc"; "Maximum 3 digits"]
  /\ JS.join "," (texts (check_cvv collects defaultState (JS.str "12")))
     = "Invalid cvc,Maximum 3 digits".
Proof. repeat split. Qed.

(** A field that was never typed in holds null. *)
Lemma falsy_values_skip_predicates_witness :
  calls (check_card_expire stops Sample.now JS.null) = []
  /\ calls (check_cvv stops visa JS.null) = []
  /\ codes (check_cvv stops visa JS.null) = ["string.base"].
Proof.
  pose proof (falsy_values_skip_predicates stops visa Sample.now JS.null
                                           eq_refl) as H.
  split; [apply H | split; apply H].
Defined.

(** C10 as stated fails at null: the error of card_expire and of cvv is
    string.base, for which the schema sets no text, so the message is the
    validator's default and not Required, the text of the empty string. *)
Lemma null_field_message_counterexample :
  codes (check_card_expire stops Sample.now JS.null) = ["string.base"]
  /\ codes (check_cvv stops visa JS.null) = ["string.base"]
  /\ Joi.lookup "string.base" (Joi.overrides (card_expire_schema Sample.now))
     = None
  /\ Joi.lookup "string.base" (Joi.overrides (cvv_schema visa)) = None
  /\ texts (check_card_expire stops Sample.now JS.null)
     = [(Sample.quoted "value" ++ " must be a string")%string]
  /\ texts (check_cvv stops visa JS.null)
     = [(Sample.quoted "value" ++ " must be a string")%string]
  /\ texts (check_cvv collects visa JS.null)
     = [(Sample.quoted "value" ++ " must be a string")%string]
  /\ texts (check_cvv stops visa (JS.str EmptyString)) = ["Required"]
  /\ ((Sample.quoted "value" ++ " must be a string")%string =? "Required")
     = false.
Proof. repeat split. Qed.

(** Typing a visa number after mount. *)
Lemma cardNumber_change_brand_witness :
  card_type (formatter_cardNumber "4242424242424242" defaultState)
  = Some "visa"
  /\ card_number (formatter_cardNumber "4242424242424242" defaultState)
     = Some "4242 4242 4242 4242".
Proof.
  rewrite (proj1 cardNumber_change_brand). split; reflexivity.
Defined.

End Runs.

(** * Further properties of the component *)

(** ** Single-rule schemas *)

Section SingleRule.

Context {I : Joi.Internals}.

Lemma run_rules_single (prefs : Joi.Prefs) (r : Joi.rule) (text : string) :
  Joi.run_rules prefs [r] text =
  (match result (Joi.apply_rule r text) with
   | Some code => [code]
   | None => []
   end, calls (Joi.apply_rule r text)).
Proof.
  unfold result, calls. cbn [Joi.run_rules]. unfold bind, ret.
  destruct (Joi.apply_rule r text) as [[code |] l]; cbn [fst snd];
    [destruct (Joi.abortEarly prefs) |]; now rewrite ?app_nil_r.
Qed.

(** With one rule there is nothing left to stop early. *)
Lemma validate_single (p1 p2 : Joi.Prefs) (label : string) (s : Joi.schema)
      (r : Joi.rule) (v : JS.value) :
  Joi.rules s = [r] ->
  Joi.validate p1 label s v = Joi.validate p2 label s v.
Proof.
  intros R. destruct v as [| | text]; try reflexivity.
  unfold Joi.validate. destruct (text =? EmptyString); [reflexivity |].
  now rewrite R, !run_rules_single.
Qed.

Lemma validate_single_count (prefs : Joi.Prefs) (label : string)
      (s : Joi.schema) (r : Joi.rule) (v : JS.value) :
  Joi.rules s = [r] ->
  (List.length (result (Joi.validate prefs label s v)) <= 1)%nat.
Proof.
  intros R. destruct v as [| | text].
  - simpl. destruct (Joi.flag_presence s); simpl; lia.
  - simpl. lia.
  - unfold Joi.validate. destruct (text =? EmptyString); [simpl; lia |].
    rewrite R, run_rules_single. unfold result, bind, ret. cbn [fst].
    destruct (fst (Joi.apply_rule r text)); simpl; lia.
Qed.

End SingleRule.

(** ** Whole runs, with their calls *)

Section WholeRuns.

Context {U : CardUtility} {I : Joi.Internals}.
Variable prefs : Joi.Prefs.
Variable m : Models.
Variable now : JS.Date.

Lemma check_card_number_calls (text : string) :
  text <> EmptyString ->
  calls (check_card_number prefs m (JS.str text))
  = [call_validateCardNumber text].
Proof.
  intros H. unfold check_card_number. rewrite (validate_str _ _ _ _ H).
  change (Joi.rules (card_number_schema m))
    with [Joi.rule_custom (card_number_custom m)].
  rewrite run_rules_custom. unfold calls. cbn [snd].
  unfold card_number_custom. rewrite (truthy_str _ H).
  unfold bind, logged, ret.
  destruct (validateCardNumber text); [destruct (card_type m) |]; reflexivity.
Qed.

Lemma check_card_expire_calls (text : string) :
  text <> EmptyString ->
  calls (check_card_expire prefs now (JS.str text))
  = [call_parseCardExpiry text].
Proof.
  intros H. unfold check_card_expire. rewrite (validate_str _ _ _ _ H).
  change (Joi.rules (card_expire_schema now))
    with [Joi.rule_custom (card_expire_custom now)].
  rewrite run_rules_custom. unfold calls. cbn [snd].
  unfold card_expire_custom. rewrite (truthy_str _ H).
  unfold bind, logged, ret.
  destruct (JS.gt _ _ || JS.lt _ _); [reflexivity |].
  destruct (JS.isNaN _ || JS.lt _ _); reflexivity.
Qed.

Lemma check_cvv_calls (text : string) :
  text <> EmptyString ->
  calls (check_cvv prefs m (JS.str text))
  = [call_validateCardCVC text (card_type m)].
Proof.
  intros H. unfold check_cvv. rewrite (validate_str _ _ _ _ H).
  change (Joi.rules (cvv_schema m))
    with [Joi.rule_custom (cvv_custom m); Joi.rule_length 3].
  unfold calls, Joi.run_rules, Joi.apply_rule, cvv_custom.
  rewrite (truthy_str _ H). unfold bind, logged, ret.
  destruct (validateCardCVC text (card_type m));
    destruct (Joi.abortEarly prefs);
    destruct (String.length text =? 3)%nat; reflexivity.
Qed.

Lemma check_email_calls (v : JS.value) : calls (check_email prefs v) = [].
Proof.
  destruct v as [| | text]; try reflexivity.
  unfold check_email, Joi.validate.
  destruct (text =? EmptyString); [reflexivity |].
  change (Joi.rules email_schema) with [Joi.rule_email Joi.allow_false].
  rewrite run_rules_single. reflexivity.
Qed.

Lemma check_cvv_result (text : string) :
  text <> EmptyString ->
  result (check_cvv prefs m (JS.str text))
  = map (Joi.report (cvv_schema m) "cvv")
        (if validateCardCVC text (card_type m)
         then if (String.length text =? 3)%nat then []
              else ["string.length"]
         else if Joi.abortEarly prefs then ["string.invalid"]
              else "string.invalid" ::
                   (if (String.length text =? 3)%nat then []
                    else ["string.length"])).
Proof.
  intros H. unfold check_cvv. rewrite (validate_str _ _ _ _ H).
  change (Joi.rules (cvv_schema m))
    with [Joi.rule_custom (cvv_custom m); Joi.rule_length 3].
  unfold result, Joi.run_rules, Joi.apply_rule, cvv_custom.
  rewrite (truthy_str _ H). unfold bind, logged, ret.
  destruct (validateCardCVC text (card_type m));
    destruct (Joi.abortEarly prefs);
    destruct (String.length text =? 3)%nat; reflexivity.
Qed.

(** A run is its result and its calls. *)
Lemma logged_eq {A} (x y : Logged A) :
  result x = result y -> calls x = calls y -> x = y.
Proof. destruct x, y. unfold result, calls. simpl. congruence. Qed.

End WholeRuns.

(** ** What the stopping preference changes *)

(** X1. Whether the validator stops at the first error or collects all of
    them changes nothing for email, card_number and card_expire, whose
    schemas have a single rule and report at most one message. For cvv the
    calls are the same either way, and the result differs only for a value
    that fails the CVC check and is not 3 characters long; two messages
    appear only when the errors are collected. *)
Theorem stopping_matters_only_for_cvv
        {U : CardUtility} {I : Joi.Internals}
        (p1 p2 : Joi.Prefs) (m : Models) (now : JS.Date) (v : JS.value) :
  check_email p1 v = check_email p2 v
  /\ check_card_number p1 m v = check_card_number p2 m v
  /\ check_card_expire p1 now v = check_card_expire p2 now v
  /\ calls (check_cvv p1 m v) = calls (check_cvv p2 m v)
  /\ (forall text,
        v = JS.str text ->
        validateCardCVC text (card_type m) = true
        \/ String.length text = 3%nat ->
        check_cvv p1 m v = check_cvv p2 m v)
  /\ (List.length (texts (check_email p1 v)) <= 1)%nat
  /\ (List.length (texts (check_card_number p1 m v)) <= 1)%nat
  /\ (List.length (texts (check_card_expire p1 now v)) <= 1)%nat
  /\ (List.length (texts (check_cvv p1 m v)) <= 2)%nat
  /\ (List.length (texts (check_cvv p1 m v)) = 2%nat ->
      Joi.abortEarly p1 = false).
Proof.
  assert (K : calls (check_cvv p1 m v) = calls (check_cvv p2 m v)).
  { destruct v as [| | text]; try reflexivity.
    destruct (String.eqb_spec text EmptyString) as [E | N];
      [now rewrite E | now rewrite !check_cvv_calls]. }
  split; [now apply validate_single with (r := Joi.rule_email Joi.allow_false) |].
  split; [now apply validate_single
            with (r := Joi.rule_custom (card_number_custom m)) |].
  split; [now apply validate_single
            with (r := Joi.rule_custom (card_expire_custom now)) |].
  split; [exact K |].
  split.
  { intros text -> D. apply logged_eq; [| exact K].
    destruct (String.eqb_spec text EmptyString) as [E | N];
      [now rewrite E |].
    rewrite !check_cvv_result by assumption.
    destruct D as [D | D]; [now rewrite D |].
    rewrite D. simpl.
    destruct (validateCardCVC text (card_type m)); [reflexivity |].
    now destruct (Joi.abortEarly p1), (Joi.abortEarly p2). }
  unfold texts. rewrite !length_map.
  split; [now apply validate_single_count
            with (r := Joi.rule_email Joi.allow_false) |].
  split; [now apply validate_single_count
            with (r := Joi.rule_custom (card_number_custom m)) |].
  split; [now apply validate_single_count
            with (r := Joi.rule_custom (card_expire_custom now)) |].
  destruct v as [| | text]; [simpl; split; [lia | discriminate] ..|].
  destruct (String.eqb_spec text EmptyString) as [E | N];
    [rewrite E; simpl; split; [lia | discriminate] |].
  rewrite check_cvv_result by assumption. rewrite length_map.
  destruct (validateCardCVC text (card_type m));
    destruct (Joi.abortEarly p1);
    destruct (String.length text =? 3)%nat; simpl;
    split; try lia; try reflexivity; discriminate.
Qed.

(** ** Which utility calls a run makes *)

(** X2. The log has a constructor for each of the six functions of the
    card utility. A validation run on a non-empty string makes exactly one
    call: validateCardNumber on the text for card_number (the brand is read
    from the models, parseCardType is not called), parseCardExpiry on the
    text for card_expire, validateCardCVC on the text and the stored brand
    for cvv, whatever the outcome and the stopping preference; the email
    run makes none. The format functions and parseCardType are called by
    the change handlers alone: formatCardNumber on the typed text and then
    parseCardType on the formatted text by the card-number handler,
    formatCardExpiry on the typed text by the expiry handler, and the
    logged handlers compute the models of the plain ones. *)
Theorem one_utility_call_per_run {U : CardUtility} {I : Joi.Internals}
        (prefs : Joi.Prefs) (m : Models) (now : JS.Date) (text : string) :
  text <> EmptyString ->
  calls (check_card_number prefs m (JS.str text))
  = [call_validateCardNumber text]
  /\ calls (check_card_expire prefs now (JS.str text))
     = [call_parseCardExpiry text]
  /\ calls (check_cvv prefs m (JS.str text))
     = [call_validateCardCVC text (card_type m)]
  /\ (forall v, calls (check_email prefs v) = [])
  /\ (forall raw,
        calls (formatter_cardNumber_logged raw m)
        = [call_formatCardNumber raw;
           call_parseCardType (formatCardNumber raw)]
        /\ result (formatter_cardNumber_logged raw m)
           = formatter_cardNumber raw m)
  /\ (forall raw,
        calls (formatter_cardExpire_logged raw m)
        = [call_formatCardExpiry raw]
        /\ result (formatter_cardExpire_logged raw m)
           = formatter_cardExpire raw m).
Proof.
  intros H. split; [now apply check_card_number_calls |].
  split; [now apply check_card_expire_calls |].
  split; [now apply check_cvv_calls |].
  split; [apply check_email_calls |].
  split; intros raw; split; reflexivity.
Qed.

(** ** Which messages a field can show *)



(** ** The expiry rule on numbers *)

(** X4. An expiry that parses to a numeric month and year is accepted
    exactly when the month lies between the current calendar month and 12
    and the year is not below the current calendar year. The month bound
    does not look at the year: the current month of the current year is
    accepted, and the month before it is refused in every year. *)
Theorem card_expire_window {U : CardUtility} {I : Joi.Internals}
        (prefs : Joi.Prefs) (now : JS.Date) (text : string) (mo yr : Z) :
  text <> EmptyString ->
  parseCardExpiry text = mkExpiry (JS.Num mo) (JS.Num yr) ->
  (result (check_card_expire prefs now (JS.str text)) = [] <->
   (JS.getMonth now + 1 <= mo <= 12 /\ JS.getFullYear now <= yr)%Z)
  /\ ((mo = JS.getMonth now + 1)%Z -> (mo <= 12)%Z ->
      (yr = JS.getFullYear now)%Z ->
      result (check_card_expire prefs now (JS.str text)) = [])
  /\ ((mo = JS.getMonth now)%Z ->
      texts (check_card_expire prefs now (JS.str text))
      = ["Invalid expire month"]).
Proof.
  intros H P.
  assert (A : result (check_card_expire prefs now (JS.str text)) = [] <->
              (JS.getMonth now + 1 <= mo <= 12 /\ JS.getFullYear now <= yr)%Z).
  { rewrite (card_expire_accepted prefs now text H), P.
    unfold month_out_of_range, year_out_of_range. simpl.
    rewrite orb_false_iff, Z.gtb_ltb, !Z.ltb_ge. lia. }
  split; [exact A | split].
  - intros E1 E2 E3. apply A. lia.
  - intros E. rewrite (card_expire_texts prefs now text H), P.
    destruct (month_out_of_range_num now mo (JS.Num yr)) as [_ M].
    rewrite M; [reflexivity | lia].
Qed.

(** X5. The month test lets a month that is not a number through: both of
    its comparisons are false on NaN. Such an expiry is judged by its year
    alone, and accepted when the year is a number not below the current
    one. *)
Theorem card_expire_month_NaN {U : CardUtility} {I : Joi.Internals}
        (prefs : Joi.Prefs) (now : JS.Date) (text : string) :
  text <> EmptyString ->
  month (parseCardExpiry text) = JS.NaN ->
  (result (check_card_expire prefs now (JS.str text)) = [] <->
   year_out_of_range now (parseCardExpiry text) = false)
  /\ (forall yr,
        year (parseCardExpiry text) = JS.Num yr ->
        (JS.getFullYear now <= yr)%Z ->
        result (check_card_expire prefs now (JS.str text)) = [])
  /\ ~ In "Invalid expire month"
          (texts (check_card_expire prefs now (JS.str text))).
Proof.
  intros H N.
  assert (M : month_out_of_range now (parseCardExpiry text) = false)
    by (unfold month_out_of_range; now rewrite N).
  split; [| split].
  - rewrite (card_expire_accepted prefs now text H). rewrite M. tauto.
  - intros yr Y L. apply (card_expire_accepted prefs now text H).
    split; [exact M |]. unfold year_out_of_range. rewrite Y. simpl.
    apply Z.ltb_ge. lia.
  - rewrite (card_expire_texts prefs now text H), M.
    destruct (year_out_of_range now _); simpl; intuition discriminate.
Qed.

(** ** Card number and brand, end to end *)

Section BrandFacts.

Context {U : CardUtility}.

Lemma detect_visa (value : string) :
  detect value = Some "visa" <-> parseCardType value = Some "visa".
Proof.
  unfold detect. split.
  - destruct (strict_eq (parseCardType value) "visa") eqn:V;
      [intros _; now apply strict_eq_true |].
    destruct (strict_eq (parseCardType value) "mastercard"); discriminate.
  - intros P. now rewrite P.
Qed.

Lemma detect_mastercard (value : string) :
  detect value = Some "mastercard" <->
  parseCardType value = Some "mastercard".
Proof.
  unfold detect. split.
  - destruct (strict_eq (parseCardType value) "visa"); [discriminate |].
    destruct (strict_eq (parseCardType value) "mastercard") eqn:M;
      [intros _; now apply strict_eq_true | discriminate].
  - intros P. now rewrite P.
Qed.

Lemma detect_some (value : string) :
  detect value <> None <->
  parseCardType value = Some "visa"
  \/ parseCardType value = Some "mastercard".
Proof.
  rewrite <- detect_visa, <- detect_mastercard.
  destruct (detect_cases value) as [D | [D | D]]; rewrite D;
    split; intros G; auto; try discriminate; try congruence.
  destruct G; discriminate.
Qed.

End BrandFacts.

(** X6. In every state the component reaches, the stored card number,
    when not empty, is accepted exactly when it passes the card utility's
    number check and parseCardType detects visa or mastercard on that same
    stored text: the brand the predicate reads from the models is the one
    the change handler derived from it. A stored number that passes the
    number check with any other detection result gets Must be a visa or
    master. *)
Theorem reachable_card_number_accepted
        {U : CardUtility} {I : Joi.Internals}
        (prefs : Joi.Prefs) (c : Component) (text : string) :
  reachable c ->
  card_number (models c) = Some text ->
  text <> EmptyString ->
  (result (check_card_number prefs (models c) (JS.str text)) = [] <->
   validateCardNumber text = true
   /\ (parseCardType text = Some "visa"
       \/ parseCardType text = Some "mastercard"))
  /\ (validateCardNumber text = true ->
      parseCardType text <> Some "visa" ->
      parseCardType text <> Some "mastercard" ->
      texts (check_card_number prefs (models c) (JS.str text))
      = ["Must be a visa or master"]).
Proof.
  intros R S H.
  pose proof (reachable_brand c R) as B.
  unfold brand_of_number in B. rewrite S in B.
  pose proof (card_number_texts prefs (models c) text H) as T.
  rewrite B in T. pose proof (detect_some text) as D.
  split.
  - unfold texts in T. split.
    + intros E. rewrite E in T. simpl in T.
      destruct (validateCardNumber text); simpl in T; [| discriminate].
      split; [reflexivity |]. apply D.
      intros Z. rewrite Z in T. discriminate.
    + intros [V P]. apply D in P. rewrite V in T. simpl in T.
      destruct (detect text); [| congruence]. now apply map_eq_nil in T.
  - intros V NV NM. rewrite T, V. simpl. unfold detect.
    now rewrite (strict_eq_false _ _ NV), (strict_eq_false _ _ NM).
Qed.

(** ** The brand icons *)

(** X7. The two brand icons are never active together. In every state
    the component reaches, an icon is active exactly when a card number is
    stored and parseCardType detects that icon's brand on it; at mount and
    for any other detection result both are inactive. An icon is drawn at
    opacity 1 when active and 0.5 when not. *)
Theorem brand_icons {U : CardUtility} (props : Props) :
  (forall m st,
      visa_active (render props m st)
      && mastercard_active (render props m st) = false)
  /\ (forall c,
        reachable c ->
        (visa_active (render props (models c) (state c)) = true <->
         exists value, card_number (models c) = Some value
                       /\ parseCardType value = Some "visa")
        /\ (mastercard_active (render props (models c) (state c)) = true <->
            exists value, card_number (models c) = Some value
                          /\ parseCardType value = Some "mastercard"))
  /\ (forall s,
        visa_active (render props (models (mount s)) (state (mount s)))
        = false
        /\ mastercard_active
             (render props (models (mount s)) (state (mount s))) = false)
  /\ (forall m st,
        CardType_opacity (Some (visa_active (render props m st)))
        = (if visa_active (render props m st) then "1" else "0.5")
        /\ (visa_active (render props m st) = true <->
            card_type m = Some "visa")
        /\ (mastercard_active (render props m st) = true <->
            card_type m = Some "mastercard")).
Proof.
  split; [| split; [| split]].
  - intros m st. simpl. destruct (card_type m) as [b |]; simpl; auto.
    destruct (String.eqb_spec b "visa") as [-> |]; reflexivity.
  - intros c R. simpl. rewrite !strict_eq_true, (reachable_brand c R).
    unfold brand_of_number.
    destruct (card_number (models c)) as [value |].
    + rewrite detect_visa, detect_mastercard. split; split;
        try (intros P; exists value; now split);
        intros [w [E P]]; congruence.
    + split; split; try discriminate; intros [w [E _]]; discriminate.
  - intros s. now split.
  - intros m st. simpl. split; [reflexivity |].
    split; apply strict_eq_true.
Qed.

(** ** When an error region is drawn *)

Lemma join_empty (xs : list string) :
  JS.join "," xs = EmptyString <-> xs = [] \/ xs = [EmptyString].
Proof.
  rewrite join_concat. destruct xs as [| x [| y rest]].
  - simpl. tauto.
  - simpl. split; [intros ->; auto | intros [G | G]; congruence].
  - change (String.concat "," (x :: y :: rest))
      with (x ++ "," ++ String.concat "," (y :: rest))%string.
    split; [| intros [G | G]; discriminate].
    destruct x; discriminate.
Qed.

(** X8. The error region of a field is drawn with the joined messages as
    its text, and is left out exactly when the field has no error or a
    single error whose message is empty. The label of email and of the card
    number is marked as in error exactly when that field's region is
    drawn. *)
Theorem error_region_shown (props : Props) (m : Models) (st : State) :
  (forall field,
      error_region st field = None <->
      dollar_errors st field = []
      \/ dollar_errors st field = [mkEntry EmptyString])
  /\ (forall field text,
        error_region st field = Some text ->
        text = getErrors st field /\ text <> EmptyString)
  /\ (email_label_error (render props m st) = true <->
      email_message (render props m st) <> None)
  /\ (card_label_error (render props m st) = true <->
      card_number_message (render props m st) <> None).
Proof.
  assert (L : forall field,
             negb (getErrors st field =? EmptyString) = true <->
             error_region st field <> None).
  { intros field. unfold error_region.
    destruct (getErrors st field =? EmptyString); simpl;
      split; congruence. }
  split; [| split; [| split; apply L]].
  - intros field. unfold error_region.
    destruct (String.eqb_spec (getErrors st field) EmptyString) as [E | N].
    + unfold getErrors in E. apply join_empty in E.
      split; [intros _ | reflexivity].
      destruct (dollar_errors st field) as [| [msg] [| e rest]];
        simpl in E; destruct E as [E | E]; try discriminate; auto.
      right. congruence.
    + split; [discriminate |]. intros G. exfalso. apply N.
      unfold getErrors. apply join_empty.
      destruct G as [-> | ->]; simpl; auto.
  - intros field text. unfold error_region.
    destruct (String.eqb_spec (getErrors st field) EmptyString) as [E | N];
      [discriminate |].
    intros G. injection G as <-. now split.
Qed.

(** ** What an event touches *)

(** X9. An event writes only what is its own: a change of a field leaves
    the other typed fields, the validator state and the outside alone, and
    only a change of the card number alters the stored number or brand. A
    change of the expiry stores formatCardExpiry of the typed text. Only
    the sync alters the validator state, only the submit reaches the
    outside, and neither alters the models. *)
Theorem event_frame {U : CardUtility}
        (c c' : Component) (e : event) (out : list effect) :
  step c e out c' ->
  (e <> submit -> out = [])
  /\ (e <> sync -> state c' = state c)
  /\ ((forall raw, e <> change_email raw) ->
      email (models c') = email (models c))
  /\ ((forall raw, e <> change_card_number raw) ->
      card_number (models c') = card_number (models c)
      /\ card_type (models c') = card_type (models c))
  /\ ((forall raw, e <> change_card_expire raw) ->
      card_expire (models c') = card_expire (models c))
  /\ ((forall raw, e <> change_cvv raw) ->
      cvv (models c') = cvv (models c))
  /\ (forall raw, e = change_card_expire raw ->
        card_expire (models c') = Some (formatCardExpiry raw))
  /\ (forall raw, e = change_email raw -> email (models c') = Some raw)
  /\ (forall raw, e = change_cvv raw -> cvv (models c') = Some raw).
Proof.
  intros S. inversion S; subst; simpl;
    repeat split; intros; try reflexivity; try congruence;
    try (exfalso; eauto; fail).
  all: match goal with
       | N : forall raw, ?f ?r <> ?f raw |- _ => now destruct (N r)
       end.
Qed.

(** ** Submit and the validator's data *)

(** X10. The callback receives the validator's data, which only the sync
    brings up to date: a submit right after a sync passes the current
    models, brand included, and a submit right after a change passes the
    data of before the change. *)
Theorem submit_passes_synced_data {U : CardUtility}
        (c c1 c2 : Component) (e : event) (out1 out2 : list effect) :
  step c e out1 c1 ->
  step c1 submit out2 c2 ->
  (e = sync -> callbacks out2 = [models c] /\ models c1 = models c)
  /\ (e <> sync -> callbacks out2 = [dollar_data (state c)]).
Proof.
  intros S1 S2. inversion S2; subst. simpl.
  inversion S1; subst; simpl; split; intros G;
    try discriminate; try congruence; try reflexivity.
  split; [congruence | reflexivity].
Qed.

(** ** Further runs on the sample utility *)

Section FurtherRuns.

#[local] Existing Instance Sample.utility_now.
#[local] Existing Instance Sample.internals.

Import Sample(stops, collects, visa, initial).

(** A three-digit CVV on a visa card. *)
Lemma one_utility_call_per_run_witness :
  calls (check_cvv stops visa (JS.str "123"))
  = [call_validateCardCVC "123" (Some "visa")]
  /\ calls (check_card_number collects visa (JS.str "123"))
     = [call_validateCardNumber "123"].
Proof.
  pose proof (one_utility_call_per_run stops visa Sample.now "123"
                ltac:(discriminate)) as A.
  pose proof (one_utility_call_per_run collects visa Sample.now "123"
                ltac:(discriminate)) as B.
  split; [apply A | apply B].
Defined.

(** December 2028, read in November 2026. *)
Lemma card_expire_window_witness :
  result (check_card_expire stops Sample.now (JS.str "12 / 28")) = [].
Proof.
  apply (proj2 (proj1 (card_expire_window stops Sample.now "12 / 28" 12 2028
                        ltac:(discriminate) eq_refl))).
  simpl. lia.
Defined.

(** No month before the slash: the month parses to NaN, the year to 2030. *)
Lemma card_expire_month_NaN_witness :
  month (parseCardExpiry "/30") = JS.NaN
  /\ result (check_card_expire stops Sample.now (JS.str "/30")) = [].
Proof.
  split; [reflexivity |].
  apply (card_expire_month_NaN stops Sample.now "/30"
           ltac:(discriminate) eq_refl).
  reflexivity.
Defined.

(** A visa number typed after mount. *)
Lemma reachable_card_number_accepted_witness :
  result (check_card_number stops
            (formatter_cardNumber "4242424242424242" defaultState)
            (JS.str "4242 4242 4242 4242")) = [].
Proof.
  apply (reachable_card_number_accepted stops
           (mkComponent (formatter_cardNumber "4242424242424242" defaultState)
                        initial)
           "4242 4242 4242 4242").
  - apply (reach_step (mount initial) (change_card_number "4242424242424242")
                      []).
    + now apply reach_mount.
    + apply (step_card_number (mount initial)).
  - reflexivity.
  - discriminate.
  - split; [reflexivity | left; reflexivity].
Defined.

(** An expiry typed after mount. *)
Lemma event_frame_witness :
  card_expire (formatter_cardExpire "1230" defaultState) = Some "12 / 30"
  /\ card_number (formatter_cardExpire "1230" defaultState) = None
  /\ card_type (formatter_cardExpire "1230" defaultState) = None.
Proof.
  pose proof (event_frame _ _ _ _ (step_card_expire (mount initial) "1230"))
    as (_ & _ & _ & N & _ & _ & E & _).
  split; [exact (E "1230" eq_refl) |].
  apply N. intros raw. discriminate.
Defined.

(** A sync and then a submit, with a visa brand stored. *)
Lemma submit_passes_synced_data_witness :
  callbacks (onSubmit (mkState visa (fun _ => []) false)) = [visa].
Proof.
  apply (submit_passes_synced_data
           (mkComponent visa initial)
           (mkComponent visa (mkState visa (fun _ => []) false))
           (mkComponent visa (mkState visa (fun _ => []) false))
           sync [] (onSubmit (mkState visa (fun _ => []) false))).
  - now apply (step_sync (mkComponent visa initial)).
  - apply (step_submit
             (mkComponent visa (mkState visa (fun _ => []) false))).
  - reflexivity.
Defined.

End FurtherRuns.
